(** * UX Starter: the row-to-slide script, embedded and verified

    A shallow embedding of the Apps Script file of the UX Starter project
    ([parseFieldsAndCreateSlide], [createRecommendationSlideGAS],
    [retrieveClientImage], [applyCustomStyle]) together with the properties
    its specification states about it.

    Conventions of the embedding.
    - A JavaScript string is a sequence of UTF-16 code units.  We work with
      the code units below 256, one [ascii] each, so a [string] of the
      Standard Library is a JavaScript string over that range.
    - The host (spreadsheet, slides, drive) is not executed.  What it holds
      when the script starts (document properties, folder contents) is the
      record [host], and reading a property or searching the folder is
      answered from it.  Every other call to the host is recorded, in
      program order, in a trace of [event]s; every object the host returns
      is a symbolic handle naming the call that produced it.
    - A function of the script is a computation [run A]: the events it
      emitted and either its value or the exception it threw. *)

From Stdlib Require Import ZArith Ascii String.
From stdpp Require Import base option list strings gmap.

Local Open Scope string_scope.
Local Open Scope Z_scope.

(** ** JavaScript primitives *)

Module JS.

(** The primitive values that reach the script: [undefined] (an absent
    array element), [null] (an absent property) and strings. *)
Inductive prim :=
| Undefined
| Null
| Str (s : string).

#[global] Instance prim_eq_dec : EqDecision prim.
Proof. solve_decision. Defined.

(** ToString, as applied by [+] with a string operand and by template
    literals. *)
Definition ToString (v : prim) : string :=
  match v with
  | Undefined => "undefined"
  | Null => "null"
  | Str s => s
  end.

(** [v === ''] *)
Definition is_empty_string (v : prim) : bool :=
  match v with
  | Str "" => true
  | _ => false
  end.

Inductive error := TypeError.

(** *** String.prototype.split and Array.prototype.join, one-character
    separator *)

Fixpoint split (sep : ascii) (s : string) : list string :=
  match s with
  | "" => [""]
  | String c s' =>
      if Ascii.eqb c sep then "" :: split sep s'
      else match split sep s' with
           | piece :: pieces => String c piece :: pieces
           | [] => [String c ""]
           end
  end.

Fixpoint join (sep : ascii) (pieces : list string) : string :=
  match pieces with
  | [] => ""
  | [piece] => piece
  | piece :: rest => piece ++ String sep (join sep rest)
  end.

(** *** White space and String.prototype.trim

    WhiteSpace and LineTerminator code units below 256: TAB, LF, VT, FF,
    CR, SP and NBSP. *)
Definition is_white_space (c : ascii) : bool :=
  let n := N_of_ascii c in
  ((9 <=? n) && (n <=? 13) || (n =? 32) || (n =? 160))%N.

Fixpoint trimStart (s : string) : string :=
  match s with
  | "" => ""
  | String c s' => if is_white_space c then trimStart s' else s
  end.

Fixpoint trimEnd (s : string) : string :=
  match s with
  | "" => ""
  | String c s' =>
      match trimEnd s' with
      | "" => if is_white_space c then "" else String c ""
      | t => String c t
      end
  end.

Definition trim (s : string) : string := trimEnd (trimStart s).

Fixpoint all_white_space (s : string) : bool :=
  match s with
  | "" => true
  | String c s' => is_white_space c && all_white_space s'
  end.

Definition starts_with_white_space (s : string) : bool :=
  match s with
  | "" => false
  | String c _ => is_white_space c
  end.

Fixpoint ends_with_white_space (s : string) : bool :=
  match s with
  | "" => false
  | String c "" => is_white_space c
  | String _ s' => ends_with_white_space s'
  end.

(** *** ToNumber on a property value

    [getProperty(k) - 1] converts the property to a number.  The sheet
    stores column offsets as decimal integers, and that is the fragment
    covered here: [null] is 0, the empty (or blank) string is 0, and an
    optionally signed run of decimal digits, white space around it
    ignored, is its value as long as it is a safe integer (below 2^53 in
    magnitude, so that the subtraction is exact).  Any other text
    (fractions, exponents, radix prefixes, non-numeric text) is left out:
    [None]. *)
Definition digit (c : ascii) : option Z :=
  let n := Z.of_N (N_of_ascii c) in
  if (48 <=? n) && (n <=? 57) then Some (n - 48) else None.

Fixpoint digits (acc : Z) (s : string) : option Z :=
  match s with
  | "" => Some acc
  | String c s' => d ← digit c; digits (10 * acc + d) s'
  end.

Definition StrDecimalInteger (s : string) : option Z :=
  match s with
  | "" => Some 0
  | "+" | "-" => None
  | String "+" s' => digits 0 s'
  | String "-" s' => Z.opp <$> digits 0 s'
  | _ => digits 0 s
  end.

Definition ToNumber (v : prim) : option Z :=
  match v with
  | Undefined => None
  | Null => Some 0
  | Str s =>
      n ← StrDecimalInteger (trim s);
      if Z.abs n <? 2 ^ 53 then Some n else None
  end.

(** [row[i]] on an array of strings: the element, or [undefined] when [i]
    is not one of its indices. *)
Definition index (row : list string) (i : Z) : prim :=
  if i <? 0 then Undefined
  else match row !! Z.to_nat i with
       | Some cell => Str cell
       | None => Undefined
       end.

End JS.

(** ** The host *)

Module Host.
Import JS.

(** A Drive file, known by its id. *)
Inductive file := DriveFile (id : string).

#[global] Instance file_eq_dec : EqDecision file.
Proof. solve_decision. Defined.

(** A Drive folder: [searchFiles f q] lists, in the order of the iterator
    that [folder.searchFiles(q)] returns, the files matching query [q]. *)
Record Folder := { searchFiles : string → list file }.

(** Modelled from the spec: the globals [documentProperties] and [folder]
    are bound in a file that is not part of the sources.  The configuration
    property set is one flat mapping from string keys to string values,
    shared by the whole script, so [documentProperties] and
    [PropertiesService.getDocumentProperties()] read the same store;
    [folder] is the storage folder of the client screenshots. *)
Record host := {
  documentProperties : gmap string string;
  folder : Folder;
}.

(** [Properties.getProperty(key)]: the value, or [null]. *)
Definition getProperty (props : gmap string string) (key : string) : prim :=
  match props !! key with
  | Some v => Str v
  | None => Null
  end.

(** [FileIterator]: the files still to come. *)
Definition FileIterator := list file.

Definition hasNext (files : FileIterator) : bool :=
  match files with
  | [] => false
  | _ :: _ => true
  end.

(** Handles of host objects, each named by the call that returned it. *)
Inductive Presentation := OpenById (id : prim).
Inductive Layout := LayoutNamed (name : string).
Inductive Slide :=
| AppendedFromLayout (deck : Presentation) (layout : Layout)
| SlideById (deck : Presentation) (id : string).
Inductive PlaceholderType := TITLE | SUBTITLE | BODY.
Inductive SlideLinkingMode := LINKED | NOT_LINKED.

(** Modelled from the spec: [retrieveShape(slide, name)], of a file that
    is not part of the sources, locates the named template shape within
    the slide; the shape serves as a positioning anchor only. *)
Inductive Shape := RetrieveShape (slide : Slide) (name : string).

(** What [slide.insertImage] receives as its source: a Drive file or a
    primitive (the URL string, or whatever stands in its place). *)
Inductive image :=
| ImageFile (f : file)
| ImageSrc (v : prim).

#[global] Instance image_eq_dec : EqDecision image.
Proof. solve_decision. Defined.

(** The calls that act on the host. *)
Inductive event :=
| Toast (msg : string)
    (* SpreadsheetApp.getActiveSpreadsheet().toast(msg) *)
| OpenDeck (id : prim)
    (* SlidesApp.openById(id) *)
| AppendLayoutSlide (deck : Presentation) (layout : Layout)
    (* deck.appendSlide(layout) *)
| SetText (slide : Slide) (placeholder : PlaceholderType) (text : prim)
    (* slide.getPlaceholder(placeholder).asShape().getText().setText(text) *)
| InsertImage (slide : Slide) (source : image) (bounds : Shape)
    (* slide.insertImage(source, bounds.getLeft(), bounds.getTop(),
                         bounds.getWidth(), bounds.getHeight()) *)
| GetSlideById (deck : Presentation) (id : string)
    (* deck.getSlideById(id) *)
| AppendSlide (deck : Presentation) (slide : Slide) (mode : SlideLinkingMode)
    (* deck.appendSlide(slide, mode) *)
| AppendInsightSlides (deck insightDeck : Presentation) (insights : list string).
    (* appendInsightSlides(deck, insightDeck, insights), of a file that is
       not part of the sources *)

(** *** Computations: a trace and an outcome *)

Inductive outcome (A : Type) :=
| Returned (a : A)
| Thrown (e : error).
Arguments Returned {A} a.
Arguments Thrown {A} e.

Definition run (A : Type) : Type := list event * outcome A.

Definition trace {A} (r : run A) : list event := r.1.
Definition result {A} (r : run A) : outcome A := r.2.

#[global] Instance run_ret : MRet run := λ A a, ([], Returned a).

#[global] Instance run_bind : MBind run := λ A B k m,
  match m.2 with
  | Returned a => ((m.1 ++ (k a).1)%list, (k a).2)
  | Thrown e => (m.1, Thrown e)
  end.

Definition emit (e : event) : run unit := ([e], Returned ()).
Definition throw {A} (e : error) : run A := ([], Thrown e).

(** [v.split(',')] on a value that may be [undefined]: reading a property
    of [undefined] or [null] is a TypeError. *)
Definition split_comma (v : prim) : run (list string) :=
  match v with
  | Str s => mret (split "," s)
  | Undefined | Null => throw TypeError
  end.

(** [v.trim()], likewise. *)
Definition trim_of (v : prim) : run string :=
  match v with
  | Str s => mret (trim s)
  | Undefined | Null => throw TypeError
  end.

End Host.

(** ** The script *)

Module Script.
Import JS Host.

Definition LF : string := String "010"%char "".

(* Warning messages *)
Definition WARNING_NO_IMAGES : string := "No image found for criteria id ".
Definition WARNING_MULTIPLE_IMAGES : string := "No image found for criteria id ".

Definition toast (msg : string) : run unit := emit (Toast msg).

(** [documentProperties.getProperty(key) - 1] *)
Definition offset (props : gmap string string) (key : string) : option Z :=
  n ← ToNumber (getProperty props key);
  Some (n - 1).

(** The query of [retrieveClientImage]; the template literal runs over two
    lines of the source. *)
Definition searchQuery (criteriaId : prim) : string :=
  "title contains '" ++ ToString criteriaId ++ "'" ++ LF ++
  "      and mimeType contains 'image'".

Definition retrieveClientImage
    (h : host) (folder : Folder) (criteriaId : prim) : run image :=
  let files : FileIterator := searchFiles folder (searchQuery criteriaId) in
  let file := ImageSrc Null in
  '(file, files) ←
    match files with
    | first :: rest =>                     (* files.hasNext(), files.next() *)
        mret (ImageFile first, rest)
    | [] =>
        toast (WARNING_NO_IMAGES ++ ToString criteriaId);;
        mret (file, files)
    end;
  (if hasNext files
   then toast (WARNING_MULTIPLE_IMAGES ++ ToString criteriaId)
   else mret ());;
  mret (if decide (file = ImageSrc Null)
        then ImageSrc (getProperty (documentProperties h) "DEFAULT_IMAGE_MOCKUP")
        else file).

Definition createRecommendationSlideGAS
    (deck : Presentation) (recommendationSlideLayout : Layout)
    (criteria : prim) (applicable description : string)
    (imageMockup : prim) (clientImage : image) : run unit :=
  emit (AppendLayoutSlide deck recommendationSlideLayout);;
  let slide := AppendedFromLayout deck recommendationSlideLayout in
  emit (SetText slide TITLE criteria);;
  emit (SetText slide SUBTITLE (Str applicable));;
  emit (SetText slide BODY (Str description));;
  let baseShape := RetrieveShape slide "best-practice" in
  let clientShape := RetrieveShape slide "client-mockup" in
  emit (InsertImage slide (ImageSrc imageMockup) baseShape);;
  emit (InsertImage slide clientImage clientShape).

(** [appendInsightSlides] lives in a file that is not part of the sources;
    its call is recorded with its arguments. *)
Definition appendInsightSlides
    (deck insightDeck : Presentation) (insights : list string) : run unit :=
  emit (AppendInsightSlides deck insightDeck insights).

(** [None]: one of the seven offsets is outside the fragment of [ToNumber]
    covered here.  Reading the offsets has no effect on the host. *)
Definition parseFieldsAndCreateSlide
    (h : host) (deck insightDeck : Presentation)
    (recommendationSlideLayout : Layout) (row : list string)
    : option (run unit) :=
  let documentProperties := documentProperties h in
  criteriaIdIndex ←
    offset documentProperties "RECOMMENDATIONS_CRITERIA_ID_ROW";
  criteriaNameIndex ←
    offset documentProperties "RECOMMENDATIONS_CRITERIA_NAME_ROW";
  criteriaAppliesIndex ←
    offset documentProperties "RECOMMENDATIONS_APPLIES_ROW";
  criteriaProblemStatementIndex ←
    offset documentProperties "RECOMMENDATIONS_PROBLEM_STATEMENT_ROW";
  criteriaSolutionStatementIndex ←
    offset documentProperties "RECOMMENDATIONS_SOLUTION_STATEMENT_ROW";
  criteriaImageMockupIndex ←
    offset documentProperties "RECOMMENDATIONS_IMAGE_MOCKUP_ROW";
  let criteriaDefaultImageUrl :=
    getProperty documentProperties "DEFAULT_IMAGE_MOCKUP" in
  criteriaInsightSlidesIndex ←
    offset documentProperties "RECOMMENDATIONS_INSIGHTS_ROW";
  Some (
    let criteriaId := index row criteriaIdIndex in
    let criteria := index row criteriaNameIndex in
    pages ← split_comma (index row criteriaAppliesIndex);
    let applicable := "Applies for: " ++ join "," pages in
    let description :=
      ToString (index row criteriaProblemStatementIndex) ++ LF ++
      ToString (index row criteriaSolutionStatementIndex) in
    let imageMockup :=
      if is_empty_string (index row criteriaImageMockupIndex)
      then criteriaDefaultImageUrl
      else index row criteriaImageMockupIndex in
    insights ← split_comma (index row criteriaInsightSlidesIndex);
    clientImage ← retrieveClientImage h (folder h) criteriaId;
    createRecommendationSlideGAS
      deck recommendationSlideLayout criteria applicable description
      imageMockup clientImage;;
    if (0 <? List.length insights)%nat
    then appendInsightSlides deck insightDeck insights
    else mret ()).

Definition applyCustomStyle (h : host) (newDeckId : string) : run unit :=
  emit (OpenDeck (Str newDeckId));;
  let deck := OpenById (Str newDeckId) in
  let insightDeckId := getProperty (documentProperties h) "INSIGHTS_DECK_ID" in
  emit (OpenDeck insightDeckId);;
  let insightDeck := OpenById insightDeckId in
  let endSlideId := getProperty (documentProperties h) "END_SLIDE_ID" in
  id ← trim_of endSlideId;
  emit (GetSlideById insightDeck id);;
  let endSlide := SlideById insightDeck id in
  emit (AppendSlide deck endSlide NOT_LINKED).

End Script.

(** ** What the properties are stated over *)

Module Sheet.
Import JS Host Script.

(** The cell of [row] that the offset stored under [key] designates;
    [undefined] when the offset points outside the row. *)
Definition cellAt (h : host) (row : list string) (key : string) : prim :=
  match offset (documentProperties h) key with
  | Some i => index row i
  | None => Undefined
  end.

(** An event is a toast. *)
Definition is_toast (e : event) : bool :=
  match e with
  | Toast _ => true
  | _ => false
  end.

(** A configuration as the sheet's loader leaves it: seven 1-based
    columns, the default mockup and the ids of the insights deck. *)
Definition properties : gmap string string :=
  list_to_map [
    ("RECOMMENDATIONS_CRITERIA_ID_ROW", "1");
    ("RECOMMENDATIONS_CRITERIA_NAME_ROW", "2");
    ("RECOMMENDATIONS_APPLIES_ROW", "3");
    ("RECOMMENDATIONS_PROBLEM_STATEMENT_ROW", "4");
    ("RECOMMENDATIONS_SOLUTION_STATEMENT_ROW", "5");
    ("RECOMMENDATIONS_IMAGE_MOCKUP_ROW", "6");
    ("RECOMMENDATIONS_INSIGHTS_ROW", "7");
    ("DEFAULT_IMAGE_MOCKUP", "https://example.com/default.png");
    ("INSIGHTS_DECK_ID", "insights-deck");
    ("END_SLIDE_ID", " end-slide ")].

(** Screenshots in the folder: none for most criteria, one for "nav-2",
    two for "cta-1". *)
Definition screenshots : Folder :=
  {| searchFiles := λ q,
       if String.eqb q (searchQuery (Str "cta-1"))
       then [DriveFile "cta-1.png"; DriveFile "cta-1 (1).png"]
       else if String.eqb q (searchQuery (Str "nav-2"))
       then [DriveFile "nav-2.png"]
       else [] |}.

Definition sheet : host :=
  {| documentProperties := properties; folder := screenshots |}.

(** The same sheet before the default mockup was configured. *)
Definition sheet_without_default : host :=
  {| documentProperties := delete "DEFAULT_IMAGE_MOCKUP" properties;
     folder := screenshots |}.

(** The same sheet with the "applies to" column set past the row's end. *)
Definition sheet_applies_off : host :=
  {| documentProperties := <["RECOMMENDATIONS_APPLIES_ROW" := "12"]> properties;
     folder := screenshots |}.

(** The same sheet with the mockup column set to 0 and the name column
    set past the row's end. *)
Definition sheet_mockup_off : host :=
  {| documentProperties :=
       <["RECOMMENDATIONS_IMAGE_MOCKUP_ROW" := "0"]>
         (<["RECOMMENDATIONS_CRITERIA_NAME_ROW" := "8"]> properties);
     folder := screenshots |}.

(** A folder without screenshots. *)
Definition empty_folder : Folder := {| searchFiles := λ _, [] |}.

Definition deck : Presentation := OpenById (Str "generated-deck").
Definition insightDeck : Presentation := OpenById (Str "insights-deck").
Definition layout : Layout := LayoutNamed "recommendation".
Definition slide : Slide := AppendedFromLayout deck layout.

(** Rows of seven cells: id, name, applies to, problem, solution, mockup,
    insights. *)
Definition row_plain : list string :=
  ["nav-2"; "Sticky navigation"; "Page A,Page B";
   "The menu scrolls away."; "Keep it in view."; ""; ""].

Definition row_with_insights : list string :=
  ["cta-1"; "Clear call to action"; "Home";
   "The button is hidden."; "Move it up."; " "; "S1,S2"].

End Sheet.

(** ** Further vocabulary: columns, host calls, more sheets *)

Module Columns.
Import JS Host Script Sheet.

(** The seven properties that hold the columns of a row. *)
Definition column_keys : list string :=
  ["RECOMMENDATIONS_CRITERIA_ID_ROW";
   "RECOMMENDATIONS_CRITERIA_NAME_ROW";
   "RECOMMENDATIONS_APPLIES_ROW";
   "RECOMMENDATIONS_PROBLEM_STATEMENT_ROW";
   "RECOMMENDATIONS_SOLUTION_STATEMENT_ROW";
   "RECOMMENDATIONS_IMAGE_MOCKUP_ROW";
   "RECOMMENDATIONS_INSIGHTS_ROW"].

(** The properties [parseFieldsAndCreateSlide] and what it calls read. *)
Definition mapper_keys : list string :=
  "DEFAULT_IMAGE_MOCKUP" :: column_keys.

(** How often the separator occurs in a string. *)
Fixpoint count_sep (sep : ascii) (s : string) : nat :=
  match s with
  | "" => 0
  | String c s' =>
      ((if Ascii.eqb c sep then 1 else 0) + count_sep sep s')%nat
  end.

(** The calls of a trace that act on the decks: all but the toasts. *)
Definition deck_calls (t : list event) : list event :=
  List.filter (λ e, negb (is_toast e)) t.

(** The sheet before the end slide was configured. *)
Definition sheet_without_end_slide : host :=
  {| documentProperties := delete "END_SLIDE_ID" properties;
     folder := screenshots |}.

(** The sheet with the end slide id stored without padding. *)
Definition sheet_end_slide_trimmed : host :=
  {| documentProperties := <["END_SLIDE_ID" := "end-slide"]> properties;
     folder := screenshots |}.

(** The sheet before the insights column was configured. *)
Definition sheet_without_insights_column : host :=
  {| documentProperties := delete "RECOMMENDATIONS_INSIGHTS_ROW" properties;
     folder := screenshots |}.

(** The sheet with the criteria-id column set past the row's end. *)
Definition sheet_id_off : host :=
  {| documentProperties :=
       <["RECOMMENDATIONS_CRITERIA_ID_ROW" := "9"]> properties;
     folder := screenshots |}.

End Columns.

Import JS Host Script Sheet.

(** ** Strings: split, join and trim *)

Section Strings.

Lemma split_not_nil sep s : split sep s ≠ [].
Proof.
  destruct s as [|c s]; simpl; [done|].
  destruct (Ascii.eqb c sep); [done|].
  by destruct (split sep s).
Qed.

Lemma join_cons sep piece next rest :
  join sep (piece :: next :: rest)
  = piece ++ String sep (join sep (next :: rest)).
Proof. done. Qed.

Lemma join_split sep s : join sep (split sep s) = s.
Proof.
  induction s as [|c s IH]; [done|].
  cbn [split]. destruct (Ascii.eqb_spec c sep) as [->|_].
  - destruct (split sep s) as [|next rest] eqn:E.
    + by apply split_not_nil in E.
    + rewrite join_cons, IH. done.
  - destruct (split sep s) as [|piece [|next rest]] eqn:E.
    + by apply split_not_nil in E.
    + cbn in *. by rewrite IH.
    + rewrite join_cons. rewrite join_cons in IH.
      by rewrite <- IH.
Qed.

Lemma trimStart_prefix s :
  ∃ l, s = l ++ trimStart s ∧ all_white_space l = true.
Proof.
  induction s as [|c s (l & E & W)]; [by exists ""|].
  cbn [trimStart]. destruct (is_white_space c) eqn:Wc.
  - exists (String c l). cbn. rewrite Wc, W. by rewrite E at 1.
  - by exists "".
Qed.

Lemma trimEnd_suffix s :
  ∃ r, s = trimEnd s ++ r ∧ all_white_space r = true.
Proof.
  induction s as [|c s (r & E & W)]; [by exists ""|].
  cbn [trimEnd]. destruct (trimEnd s) as [|d t].
  - change (s = r) in E. subst r. destruct (is_white_space c) eqn:Wc.
    + exists (String c s). cbn. by rewrite Wc, W.
    + by exists s.
  - exists r. split; [|done]. cbn. by rewrite E at 1.
Qed.

Lemma trimStart_starts s : starts_with_white_space (trimStart s) = false.
Proof.
  induction s as [|c s IH]; [done|].
  cbn [trimStart]. by destruct (is_white_space c) eqn:Wc; [|cbn].
Qed.

Lemma trimEnd_starts s :
  starts_with_white_space s = false →
  starts_with_white_space (trimEnd s) = false.
Proof.
  destruct s as [|c s]; [done|]. cbn. intros Wc.
  destruct (trimEnd s); [by rewrite Wc|done].
Qed.

Lemma trimEnd_ends s : ends_with_white_space (trimEnd s) = false.
Proof.
  induction s as [|c s IH]; [done|].
  cbn [trimEnd]. destruct (trimEnd s) as [|d t].
  - by destruct (is_white_space c) eqn:Wc; [|cbn].
  - done.
Qed.

(** [trim] removes white space at both ends and nothing else. *)
Lemma trim_spec s :
  (∃ l r, s = l ++ trim s ++ r
          ∧ all_white_space l = true ∧ all_white_space r = true)
  ∧ starts_with_white_space (trim s) = false
  ∧ ends_with_white_space (trim s) = false.
Proof.
  unfold trim. split; [|split].
  - destruct (trimStart_prefix s) as (l & El & Wl).
    destruct (trimEnd_suffix (trimStart s)) as (r & Er & Wr).
    exists l, r. by rewrite <- Er.
  - apply trimEnd_starts, trimStart_starts.
  - apply trimEnd_ends.
Qed.

End Strings.

(** ** The image resolver, by number of matches *)

Lemma retrieveClientImage_cases h folder criteriaId :
  retrieveClientImage h folder criteriaId =
  match searchFiles folder (searchQuery criteriaId) with
  | [] =>
      ([Toast (WARNING_NO_IMAGES ++ ToString criteriaId)],
       Returned (ImageSrc (getProperty (documentProperties h)
                                       "DEFAULT_IMAGE_MOCKUP")))
  | [only] => ([], Returned (ImageFile only))
  | first :: _ :: _ =>
      ([Toast (WARNING_MULTIPLE_IMAGES ++ ToString criteriaId)],
       Returned (ImageFile first))
  end.
Proof.
  unfold retrieveClientImage.
  by destruct (searchFiles folder (searchQuery criteriaId)) as [|? [|? ?]].
Qed.

Lemma retrieveClientImage_returns h folder criteriaId :
  ∃ toasts clientImage,
    retrieveClientImage h folder criteriaId = (toasts, Returned clientImage)
    ∧ forallb is_toast toasts = true.
Proof.
  rewrite retrieveClientImage_cases.
  destruct (searchFiles folder (searchQuery criteriaId)) as [|? [|? ?]];
    eauto.
Qed.

(** ** The row-to-slide mapper, in terms of the designated cells *)

Section Rows.
Variables (h : host) (deck insightDeck : Presentation) (layout : Layout).
Variable row : list string.

Let cell := cellAt h row.
Let slide := AppendedFromLayout deck layout.
Let default := getProperty (documentProperties h) "DEFAULT_IMAGE_MOCKUP".

(** The image source handed to the slide builder. *)
Let mockup :=
  if is_empty_string (cell "RECOMMENDATIONS_IMAGE_MOCKUP_ROW")
  then default
  else cell "RECOMMENDATIONS_IMAGE_MOCKUP_ROW".

Lemma parseFieldsAndCreateSlide_run r :
  parseFieldsAndCreateSlide h deck insightDeck layout row = Some r →
  r = (pages ← split_comma (cell "RECOMMENDATIONS_APPLIES_ROW");
       insights ← split_comma (cell "RECOMMENDATIONS_INSIGHTS_ROW");
       clientImage ←
         retrieveClientImage h (folder h)
           (cell "RECOMMENDATIONS_CRITERIA_ID_ROW");
       createRecommendationSlideGAS deck layout
         (cell "RECOMMENDATIONS_CRITERIA_NAME_ROW")
         ("Applies for: " ++ join "," pages)
         (ToString (cell "RECOMMENDATIONS_PROBLEM_STATEMENT_ROW") ++ LF ++
          ToString (cell "RECOMMENDATIONS_SOLUTION_STATEMENT_ROW"))
         mockup clientImage;;
       if (0 <? List.length insights)%nat
       then appendInsightSlides deck insightDeck insights
       else mret ()).
Proof.
  intros H. unfold parseFieldsAndCreateSlide in H.
  subst mockup default cell. unfold cellAt.
  repeat match type of H with
  | context [offset ?p ?k] =>
      let E := fresh "E" in
      destruct (offset p k) eqn:E; [|done]; cbn [mbind option_bind] in H
  end.
  by injection H as <-.
Qed.

(** Without an "applies to" cell, or without an insights cell, [split] is
    called on [undefined]: the mapper throws before it touches the host. *)
Lemma parseFieldsAndCreateSlide_throws r :
  parseFieldsAndCreateSlide h deck insightDeck layout row = Some r →
  cell "RECOMMENDATIONS_APPLIES_ROW" = Undefined
  ∨ cell "RECOMMENDATIONS_INSIGHTS_ROW" = Undefined →
  r = ([], Thrown TypeError).
Proof.
  intros ->%parseFieldsAndCreateSlide_run [E|E]; rewrite E.
  - done.
  - by destruct (cell "RECOMMENDATIONS_APPLIES_ROW").
Qed.

(** With both cells present the mapper returns, and this is all it did. *)
Lemma parseFieldsAndCreateSlide_returns r applies insights :
  parseFieldsAndCreateSlide h deck insightDeck layout row = Some r →
  cell "RECOMMENDATIONS_APPLIES_ROW" = Str applies →
  cell "RECOMMENDATIONS_INSIGHTS_ROW" = Str insights →
  ∃ toasts clientImage,
    retrieveClientImage h (folder h) (cell "RECOMMENDATIONS_CRITERIA_ID_ROW")
    = (toasts, Returned clientImage)
    ∧ forallb is_toast toasts = true
    ∧ r = ((toasts ++
            [AppendLayoutSlide deck layout;
             SetText slide TITLE (cell "RECOMMENDATIONS_CRITERIA_NAME_ROW");
             SetText slide SUBTITLE
               (Str ("Applies for: " ++ join "," (split "," applies)));
             SetText slide BODY
               (Str (ToString (cell "RECOMMENDATIONS_PROBLEM_STATEMENT_ROW")
                     ++ LF ++
                     ToString (cell "RECOMMENDATIONS_SOLUTION_STATEMENT_ROW")));
             InsertImage slide (ImageSrc mockup)
               (RetrieveShape slide "best-practice");
             InsertImage slide clientImage
               (RetrieveShape slide "client-mockup");
             AppendInsightSlides deck insightDeck (split "," insights)])%list,
           Returned ()).
Proof.
  intros ->%parseFieldsAndCreateSlide_run Ea Ei. rewrite Ea, Ei.
  destruct (retrieveClientImage_returns h (folder h)
              (cell "RECOMMENDATIONS_CRITERIA_ID_ROW"))
    as (toasts & clientImage & Er & Et).
  exists toasts, clientImage. split; [done|]. split; [done|].
  rewrite Er. cbn [split_comma].
  pose proof (split_not_nil "," insights) as Hn.
  destruct (split "," insights) as [|id ids] eqn:Es; [done|].
  done.
Qed.

End Rows.

Lemma not_among_toasts (toasts : list event) (e : event) :
  forallb is_toast toasts = true → is_toast e = false → e ∉ toasts.
Proof.
  intros Ht He Hin. rewrite forallb_forall in Ht.
  apply list_elem_of_In, Ht in Hin. congruence.
Qed.

Section Outcome.
Variables (h : host) (deck insightDeck : Presentation) (layout : Layout).
Variable row : list string.

Lemma cellAt_cases key :
  cellAt h row key = Undefined ∨ ∃ s, cellAt h row key = Str s.
Proof.
  unfold cellAt, index.
  destruct (offset _ key) as [i|]; [|by left].
  destruct (i <? 0); [by left|].
  destruct (row !! Z.to_nat i); eauto.
Qed.

Lemma cellAt_out_of_range key i :
  offset (documentProperties h) key = Some i →
  cellAt h row key = Undefined ↔ i < 0 ∨ Z.of_nat (List.length row) ≤ i.
Proof.
  intros E. unfold cellAt, index. rewrite E.
  destruct (Z.ltb_spec i 0) as [Hi|Hi]; [intuition lia|].
  destruct (row !! Z.to_nat i) as [c|] eqn:El.
  - apply lookup_lt_Some in El. split; [done|lia].
  - apply lookup_ge_None in El. split; [lia|done].
Qed.

(** The source handed to the slide builder for the mockup. *)
Let mockup :=
  if is_empty_string (cellAt h row "RECOMMENDATIONS_IMAGE_MOCKUP_ROW")
  then getProperty (documentProperties h) "DEFAULT_IMAGE_MOCKUP"
  else cellAt h row "RECOMMENDATIONS_IMAGE_MOCKUP_ROW".
Let slide := AppendedFromLayout deck layout.

Lemma parseFieldsAndCreateSlide_trace r :
  parseFieldsAndCreateSlide h deck insightDeck layout row = Some r →
  r = ([], Thrown TypeError)
  ∨ ∃ applies insights toasts clientImage,
      cellAt h row "RECOMMENDATIONS_APPLIES_ROW" = Str applies
      ∧ cellAt h row "RECOMMENDATIONS_INSIGHTS_ROW" = Str insights
      ∧ forallb is_toast toasts = true
      ∧ r = ((toasts ++
              [AppendLayoutSlide deck layout;
               SetText slide TITLE
                 (cellAt h row "RECOMMENDATIONS_CRITERIA_NAME_ROW");
               SetText slide SUBTITLE
                 (Str ("Applies for: " ++ join "," (split "," applies)));
               SetText slide BODY
                 (Str (ToString
                         (cellAt h row "RECOMMENDATIONS_PROBLEM_STATEMENT_ROW")
                       ++ LF ++
                       ToString
                         (cellAt h row "RECOMMENDATIONS_SOLUTION_STATEMENT_ROW")));
               InsertImage slide (ImageSrc mockup)
                 (RetrieveShape slide "best-practice");
               InsertImage slide clientImage
                 (RetrieveShape slide "client-mockup");
               AppendInsightSlides deck insightDeck (split "," insights)])%list,
             Returned ()).
Proof.
  intros H.
  destruct (cellAt_cases "RECOMMENDATIONS_APPLIES_ROW") as [Ea|[a Ea]];
    [left; apply (parseFieldsAndCreateSlide_throws _ _ _ _ _ _ H); auto|].
  destruct (cellAt_cases "RECOMMENDATIONS_INSIGHTS_ROW") as [Ei|[i Ei]];
    [left; apply (parseFieldsAndCreateSlide_throws _ _ _ _ _ _ H); auto|].
  right. exists a, i.
  destruct (parseFieldsAndCreateSlide_returns _ _ _ _ _ _ _ _ H Ea Ei)
    as (toasts & clientImage & _ & Ht & ->).
  by exists toasts, clientImage.
Qed.

(** Whatever is inserted over the "best-practice" shape is [mockup]. *)
Lemma best_practice_source r s src :
  parseFieldsAndCreateSlide h deck insightDeck layout row = Some r →
  InsertImage s src (RetrieveShape s "best-practice") ∈ trace r →
  src = ImageSrc mockup.
Proof.
  intros [->|(a & i & toasts & clientImage & _ & _ & Ht & ->)]
    %parseFieldsAndCreateSlide_trace; cbn [trace fst].
  - by intros ?%not_elem_of_nil.
  - rewrite elem_of_app.
    intros [Hin|Hin]; [by apply (not_among_toasts _ _ Ht) in Hin|].
    rewrite !elem_of_cons, elem_of_nil in Hin.
    destruct Hin as [?|[?|[?|[?|[?|[?|[?|[]]]]]]]]; congruence.
Qed.

(** When the mapper returns, [mockup] was inserted there. *)
Lemma best_practice_inserted r :
  parseFieldsAndCreateSlide h deck insightDeck layout row = Some r →
  result r = Returned () →
  InsertImage slide (ImageSrc mockup) (RetrieveShape slide "best-practice")
  ∈ trace r.
Proof.
  intros [->|(a & i & toasts & clientImage & _ & _ & _ & ->)]
    %parseFieldsAndCreateSlide_trace; [done|].
  intros _. cbn [trace fst]. rewrite elem_of_app, !elem_of_cons. auto 10.
Qed.

End Outcome.

(** ** The image resolver *)

(** C1. The claim: with two or more matching files the resolver returns the
    last file enumerated and emits exactly one warning toast.  Evaluated on
    the folder holding two screenshots for "cta-1": one toast is emitted,
    but the file returned is the first of the two, not the last. *)
Theorem retrieveClientImage_two_matches_returns_first :
  searchFiles screenshots (searchQuery (Str "cta-1"))
  = [DriveFile "cta-1.png"; DriveFile "cta-1 (1).png"]
  ∧ retrieveClientImage sheet screenshots (Str "cta-1")
    = ([Toast "No image found for criteria id cta-1"],
       Returned (ImageFile (DriveFile "cta-1.png")))
  ∧ last (searchFiles screenshots (searchQuery (Str "cta-1")))
    = Some (DriveFile "cta-1 (1).png").
Proof. by vm_compute. Qed.

(** C2. The resolver emits a warning toast if and only if the number of
    matching files is not exactly one.  With exactly one match it returns
    that file and emits nothing; with no match it emits exactly one toast,
    the "no image found" message followed by the criteria id, and returns
    the value of the DEFAULT_IMAGE_MOCKUP property. *)
Theorem retrieveClientImage_warns_unless_one_match
    (h : host) (folder : Folder) (criteriaId : prim) :
  let files := searchFiles folder (searchQuery criteriaId) in
  let r := retrieveClientImage h folder criteriaId in
  ((∃ msg, Toast msg ∈ trace r) ↔ List.length files ≠ 1%nat)
  ∧ (∀ only, files = [only] → r = ([], Returned (ImageFile only)))
  ∧ (files = [] →
     trace r = [Toast ("No image found for criteria id " ++ ToString criteriaId)]
     ∧ result r = Returned (ImageSrc (getProperty (documentProperties h)
                                                   "DEFAULT_IMAGE_MOCKUP"))
     ∧ ∀ url, documentProperties h !! "DEFAULT_IMAGE_MOCKUP" = Some url →
              result r = Returned (ImageSrc (Str url))).
Proof.
  intros files r. subst r. rewrite retrieveClientImage_cases. fold files.
  destruct files as [|only [|second rest]]; cbn [trace result fst snd].
  - split; [|split]; [|done|].
    + split; [done|]. intros _. eexists. apply list_elem_of_here.
    + intros _. split; [done|]. split; [done|].
      intros url E. unfold getProperty. by rewrite E.
  - split; [|split]; [|by intros ? [= ->]|done].
    split; [|done]. intros [msg Hin]. by apply not_elem_of_nil in Hin.
  - split; [|split]; [|done|done].
    split; [done|]. intros _. eexists. apply list_elem_of_here.
Qed.

(** C5. The warning emitted when several images match is, character for
    character, the one emitted when none does: both constants are the text
    "No image found for criteria id ", and each toast is that text followed
    by the criteria id. *)
Theorem multiple_images_warning_is_no_image_warning
    (h : host) (none many : Folder) (criteriaId : prim) :
  searchFiles none (searchQuery criteriaId) = [] →
  (2 ≤ List.length (searchFiles many (searchQuery criteriaId)))%nat →
  WARNING_MULTIPLE_IMAGES = WARNING_NO_IMAGES
  ∧ WARNING_NO_IMAGES = "No image found for criteria id "
  ∧ trace (retrieveClientImage h many criteriaId)
    = [Toast ("No image found for criteria id " ++ ToString criteriaId)]
  ∧ trace (retrieveClientImage h none criteriaId)
    = trace (retrieveClientImage h many criteriaId).
Proof.
  intros En Em. rewrite !retrieveClientImage_cases, En.
  destruct (searchFiles many _) as [|first [|second rest]];
    cbn in Em; [lia|lia|done].
Qed.

Lemma multiple_images_warning_on_sheet :
  trace (retrieveClientImage sheet screenshots (Str "cta-1"))
  = [Toast "No image found for criteria id cta-1"]
  ∧ trace (retrieveClientImage sheet empty_folder (Str "cta-1"))
    = trace (retrieveClientImage sheet screenshots (Str "cta-1")).
Proof.
  apply (multiple_images_warning_is_no_image_warning
           sheet empty_folder screenshots (Str "cta-1")).
  - reflexivity.
  - vm_compute. lia.
Defined.

(** C10. With no matching file and no DEFAULT_IMAGE_MOCKUP property, the
    resolver returns [null]: neither a file nor a URL. *)
Theorem retrieveClientImage_null_without_default
    (h : host) (folder : Folder) (criteriaId : prim) :
  searchFiles folder (searchQuery criteriaId) = [] →
  documentProperties h !! "DEFAULT_IMAGE_MOCKUP" = None →
  result (retrieveClientImage h folder criteriaId) = Returned (ImageSrc Null)
  ∧ (∀ f, result (retrieveClientImage h folder criteriaId)
          ≠ Returned (ImageFile f))
  ∧ (∀ url, result (retrieveClientImage h folder criteriaId)
            ≠ Returned (ImageSrc (Str url))).
Proof.
  intros Ef Ep. rewrite retrieveClientImage_cases, Ef.
  unfold getProperty. rewrite Ep. done.
Qed.

Lemma retrieveClientImage_null_on_sheet_without_default :
  result (retrieveClientImage sheet_without_default screenshots (Str "hero-3"))
  = Returned (ImageSrc Null).
Proof.
  apply (retrieveClientImage_null_without_default
           sheet_without_default screenshots (Str "hero-3")).
  - reflexivity.
  - vm_compute. reflexivity.
Defined.

(** ** The row-to-slide mapper *)

(** C3. The claim: the insight appender is called if and only if the
    insights cell holds at least one insight id, and is not called for an
    empty cell.  Evaluated on a row whose insights cell is the empty string:
    [split] yields the one-element array holding the empty string, the
    length test passes, and the appender is called with it. *)
Theorem parseFieldsAndCreateSlide_appends_for_empty_insights_cell :
  cellAt sheet row_plain "RECOMMENDATIONS_INSIGHTS_ROW" = Str ""
  ∧ split "," "" = [""]
  ∧ ∃ r, parseFieldsAndCreateSlide sheet deck insightDeck layout row_plain
         = Some r
         ∧ result r = Returned ()
         ∧ last (trace r) = Some (AppendInsightSlides deck insightDeck [""]).
Proof.
  split; [by vm_compute|]. split; [done|].
  eexists. split; [vm_compute; reflexivity|]. by vm_compute.
Qed.

(** C4, as stated, fails: with the "applies to" offset past the end of the
    row the designated cell is [undefined] and the mapper does not return;
    it throws a TypeError. *)
Lemma out_of_range_applies_offset_throws :
  cellAt sheet_applies_off row_with_insights "RECOMMENDATIONS_APPLIES_ROW"
  = Undefined
  ∧ parseFieldsAndCreateSlide
      sheet_applies_off deck insightDeck layout row_with_insights
    = Some ([], Thrown TypeError)
  ∧ ¬ ∃ t, parseFieldsAndCreateSlide
             sheet_applies_off deck insightDeck layout row_with_insights
           = Some (t, Returned ()).
Proof.
  split; [by vm_compute|].
  assert (parseFieldsAndCreateSlide
            sheet_applies_off deck insightDeck layout row_with_insights
          = Some ([], Thrown TypeError)) as E by (by vm_compute).
  split; [done|]. intros [t Ht]. rewrite E in Ht. discriminate.
Qed.

(** C4, amended.  An offset that points outside the row designates
    [undefined].  For the criteria id, the name, the problem and solution
    statements and the mockup this degrades without an error: the title is
    set to the designated value, the body to the two statements converted
    to text (the word "undefined" for an absent one) and the mockup source
    to the designated value.  For the "applies to" and the insights cell it
    does not: the mapper throws a TypeError before any call to the host. *)
Theorem parseFieldsAndCreateSlide_out_of_range
    (h : host) (deck insightDeck : Presentation) (layout : Layout)
    (row : list string) (r : run unit) :
  parseFieldsAndCreateSlide h deck insightDeck layout row = Some r →
  let cell := cellAt h row in
  let slide := AppendedFromLayout deck layout in
  (∀ key i, offset (documentProperties h) key = Some i →
            cell key = Undefined ↔ i < 0 ∨ Z.of_nat (List.length row) ≤ i)
  ∧ (cell "RECOMMENDATIONS_APPLIES_ROW" = Undefined
     ∨ cell "RECOMMENDATIONS_INSIGHTS_ROW" = Undefined →
     r = ([], Thrown TypeError))
  ∧ (cell "RECOMMENDATIONS_APPLIES_ROW" ≠ Undefined →
     cell "RECOMMENDATIONS_INSIGHTS_ROW" ≠ Undefined →
     result r = Returned ()
     ∧ SetText slide TITLE (cell "RECOMMENDATIONS_CRITERIA_NAME_ROW") ∈ trace r
     ∧ SetText slide BODY
         (Str (ToString (cell "RECOMMENDATIONS_PROBLEM_STATEMENT_ROW")
               ++ LF ++
               ToString (cell "RECOMMENDATIONS_SOLUTION_STATEMENT_ROW")))
       ∈ trace r
     ∧ (cell "RECOMMENDATIONS_PROBLEM_STATEMENT_ROW" = Undefined →
        cell "RECOMMENDATIONS_SOLUTION_STATEMENT_ROW" = Undefined →
        SetText slide BODY (Str ("undefined" ++ LF ++ "undefined")) ∈ trace r)
     ∧ (cell "RECOMMENDATIONS_IMAGE_MOCKUP_ROW" = Undefined →
        InsertImage slide (ImageSrc Undefined)
          (RetrieveShape slide "best-practice") ∈ trace r)).
Proof.
  intros H cell slide. split; [|split].
  - intros key i E. by apply cellAt_out_of_range.
  - apply (parseFieldsAndCreateSlide_throws _ _ _ _ _ _ H).
  - intros Na Ni.
    destruct (cellAt_cases h row "RECOMMENDATIONS_APPLIES_ROW")
      as [?|[applies Ea]]; [done|].
    destruct (cellAt_cases h row "RECOMMENDATIONS_INSIGHTS_ROW")
      as [?|[insights Ei]]; [done|].
    destruct (parseFieldsAndCreateSlide_returns _ _ _ _ _ _ _ _ H Ea Ei)
      as (toasts & clientImage & _ & _ & ->).
    cbn [trace result fst snd]. fold cell slide.
    split; [done|]. split; [|split; [|split]].
    + rewrite elem_of_app, !elem_of_cons. auto.
    + rewrite elem_of_app, !elem_of_cons. auto 10.
    + intros Ep Es. rewrite Ep, Es.
      rewrite elem_of_app, !elem_of_cons. auto 10.
    + intros Em. rewrite Em. rewrite elem_of_app, !elem_of_cons. auto 10.
Qed.

Lemma parseFieldsAndCreateSlide_out_of_range_on_sheet :
  ∃ r, parseFieldsAndCreateSlide
         sheet_mockup_off deck insightDeck layout row_with_insights = Some r
       ∧ cellAt sheet_mockup_off row_with_insights
           "RECOMMENDATIONS_CRITERIA_NAME_ROW" = Undefined
       ∧ result r = Returned ()
       ∧ SetText slide TITLE Undefined ∈ trace r
       ∧ InsertImage slide (ImageSrc Undefined)
           (RetrieveShape slide "best-practice") ∈ trace r.
Proof.
  eexists. split; [vm_compute; reflexivity|].
  split; [by vm_compute|].
  edestruct (parseFieldsAndCreateSlide_out_of_range
               sheet_mockup_off deck insightDeck layout row_with_insights)
    as (_ & _ & Hret); [vm_compute; reflexivity|].
  destruct Hret as (Hr & Ht & _ & _ & Hm); [by vm_compute|by vm_compute|].
  split; [exact Hr|]. split; [exact Ht|]. apply Hm. by vm_compute.
Defined.

(** C6. For a row whose image-mockup cell is the empty string, the image
    source handed to the slide builder, which the builder inserts over the
    "best-practice" shape, is the value of the DEFAULT_IMAGE_MOCKUP
    property; for any other text in the cell it is the cell's contents.  No
    other source is ever inserted there, and it is inserted whenever the
    mapper returns. *)
Theorem blank_mockup_cell_takes_default
    (h : host) (deck insightDeck : Presentation) (layout : Layout)
    (row : list string) (r : run unit) (mockupCell : string) :
  parseFieldsAndCreateSlide h deck insightDeck layout row = Some r →
  cellAt h row "RECOMMENDATIONS_IMAGE_MOCKUP_ROW" = Str mockupCell →
  let slide := AppendedFromLayout deck layout in
  let source :=
    if decide (mockupCell = "")
    then getProperty (documentProperties h) "DEFAULT_IMAGE_MOCKUP"
    else Str mockupCell in
  (∀ s src, InsertImage s src (RetrieveShape s "best-practice") ∈ trace r →
            src = ImageSrc source)
  ∧ (result r = Returned () →
     InsertImage slide (ImageSrc source) (RetrieveShape slide "best-practice")
     ∈ trace r)
  ∧ (mockupCell = "" →
     ∀ url, documentProperties h !! "DEFAULT_IMAGE_MOCKUP" = Some url →
            source = Str url).
Proof.
  intros H Em slide source.
  assert (source
          = if is_empty_string (cellAt h row "RECOMMENDATIONS_IMAGE_MOCKUP_ROW")
            then getProperty (documentProperties h) "DEFAULT_IMAGE_MOCKUP"
            else cellAt h row "RECOMMENDATIONS_IMAGE_MOCKUP_ROW") as ->.
  { rewrite Em. subst source. by destruct mockupCell. }
  split; [|split].
  - intros s src. apply (best_practice_source _ _ _ _ _ _ _ _ H).
  - apply (best_practice_inserted _ _ _ _ _ _ H).
  - intros -> url E. rewrite Em. cbn. unfold getProperty. by rewrite E.
Qed.

Lemma blank_mockup_cell_on_sheet :
  ∃ r, parseFieldsAndCreateSlide sheet deck insightDeck layout row_plain
       = Some r
       ∧ InsertImage slide (ImageSrc (Str "https://example.com/default.png"))
           (RetrieveShape slide "best-practice") ∈ trace r.
Proof.
  eexists. split; [vm_compute; reflexivity|].
  edestruct (blank_mockup_cell_takes_default
               sheet deck insightDeck layout row_plain)
    as (_ & Hin & _); [vm_compute; reflexivity|by vm_compute|].
  apply Hin. by vm_compute.
Defined.

(** C7. Splitting an "applies to" cell on commas and joining the pieces
    with commas gives the cell back, so the subtitle is the text
    "Applies for: " followed by the cell as it stands; the cell
    "Page A,Page B" gives exactly "Applies for: Page A,Page B". *)
Theorem applies_cell_is_not_reformatted :
  (∀ appliesCell, join "," (split "," appliesCell) = appliesCell)
  ∧ (∀ h deck insightDeck layout row r appliesCell,
       parseFieldsAndCreateSlide h deck insightDeck layout row = Some r →
       cellAt h row "RECOMMENDATIONS_APPLIES_ROW" = Str appliesCell →
       result r = Returned () →
       let slide := AppendedFromLayout deck layout in
       SetText slide SUBTITLE (Str ("Applies for: " ++ appliesCell)) ∈ trace r
       ∧ ∀ s text, SetText s SUBTITLE text ∈ trace r →
                   text = Str ("Applies for: " ++ appliesCell))
  ∧ split "," "Page A,Page B" = ["Page A"; "Page B"]
  ∧ "Applies for: " ++ join "," (split "," "Page A,Page B")
    = "Applies for: Page A,Page B"
  ∧ ∃ r, parseFieldsAndCreateSlide sheet deck insightDeck layout row_plain
         = Some r
         ∧ cellAt sheet row_plain "RECOMMENDATIONS_APPLIES_ROW"
           = Str "Page A,Page B"
         ∧ SetText slide SUBTITLE (Str "Applies for: Page A,Page B") ∈ trace r.
Proof.
  assert (∀ h deck insightDeck layout row r appliesCell,
    parseFieldsAndCreateSlide h deck insightDeck layout row = Some r →
    cellAt h row "RECOMMENDATIONS_APPLIES_ROW" = Str appliesCell →
    result r = Returned () →
    SetText (AppendedFromLayout deck layout) SUBTITLE
      (Str ("Applies for: " ++ appliesCell)) ∈ trace r
    ∧ ∀ s text, SetText s SUBTITLE text ∈ trace r →
                text = Str ("Applies for: " ++ appliesCell)) as Hrun.
  { intros h deck insightDeck layout row r appliesCell H Ea Hr.
    destruct (parseFieldsAndCreateSlide_trace _ _ _ _ _ _ H)
      as [->|(a & i & toasts & clientImage & Ea' & _ & Ht & ->)]; [done|].
    rewrite Ea in Ea'. injection Ea' as <-.
    cbn [trace fst]. rewrite join_split. split.
    - rewrite elem_of_app, !elem_of_cons. auto 10.
    - intros s text. rewrite elem_of_app.
      intros [Hin|Hin]; [by apply (not_among_toasts _ _ Ht) in Hin|].
      rewrite !elem_of_cons, elem_of_nil in Hin.
      destruct Hin as [?|[?|[?|[?|[?|[?|[?|[]]]]]]]]; congruence. }
  split; [apply join_split|]. split; [exact Hrun|].
  split; [done|]. split; [done|].
  eexists. split; [vm_compute; reflexivity|]. split; [by vm_compute|].
  apply (Hrun sheet deck insightDeck layout row_plain _ "Page A,Page B");
    by vm_compute.
Qed.

(** C9. The default is substituted only for a cell that is exactly the
    empty string: any other text in the image-mockup cell, text made of
    white space only included, is handed to the slide builder as it
    stands. *)
Theorem non_empty_mockup_cell_is_passed_verbatim
    (h : host) (deck insightDeck : Presentation) (layout : Layout)
    (row : list string) (r : run unit) (mockupCell : string) :
  parseFieldsAndCreateSlide h deck insightDeck layout row = Some r →
  cellAt h row "RECOMMENDATIONS_IMAGE_MOCKUP_ROW" = Str mockupCell →
  mockupCell ≠ "" →
  let slide := AppendedFromLayout deck layout in
  (∀ s src, InsertImage s src (RetrieveShape s "best-practice") ∈ trace r →
            src = ImageSrc (Str mockupCell))
  ∧ (result r = Returned () →
     InsertImage slide (ImageSrc (Str mockupCell))
       (RetrieveShape slide "best-practice") ∈ trace r)
  ∧ (∀ v, is_empty_string v = true ↔ v = Str "").
Proof.
  intros H Em Hne slide.
  pose proof (λ s src, best_practice_source _ _ _ _ _ _ s src H) as Hsrc.
  pose proof (best_practice_inserted _ _ _ _ _ _ H) as Hins.
  rewrite Em in Hsrc, Hins.
  replace (is_empty_string (Str mockupCell)) with false in Hsrc, Hins
    by (by destruct mockupCell).
  split; [|split]; [| |].
  - intros s src. apply Hsrc.
  - exact Hins.
  - intros [| |[|]]; cbn; split; congruence.
Qed.

Lemma blank_padded_mockup_cell_on_sheet :
  all_white_space " " = true
  ∧ ∃ r, parseFieldsAndCreateSlide
           sheet deck insightDeck layout row_with_insights = Some r
         ∧ InsertImage slide (ImageSrc (Str " "))
             (RetrieveShape slide "best-practice") ∈ trace r.
Proof.
  split; [reflexivity|].
  eexists. split; [vm_compute; reflexivity|].
  edestruct (non_empty_mockup_cell_is_passed_verbatim
               sheet deck insightDeck layout row_with_insights)
    as (_ & Hin & _); [vm_compute; reflexivity|by vm_compute|done|].
  apply Hin. by vm_compute.
Defined.

(** ** The deck finisher *)

(** C8. With END_SLIDE_ID configured, [applyCustomStyle] opens the
    generated deck, then the insights deck, looks the end slide up in the
    insights deck by the property with the white space around it removed,
    and appends that slide to the generated deck, not linked. *)
Theorem applyCustomStyle_appends_end_slide
    (h : host) (newDeckId endSlideId : string) :
  documentProperties h !! "END_SLIDE_ID" = Some endSlideId →
  let deck := OpenById (Str newDeckId) in
  let insightDeckId := getProperty (documentProperties h) "INSIGHTS_DECK_ID" in
  let insightDeck := OpenById insightDeckId in
  let id := trim endSlideId in
  applyCustomStyle h newDeckId
  = ([OpenDeck (Str newDeckId);
      OpenDeck insightDeckId;
      GetSlideById insightDeck id;
      AppendSlide deck (SlideById insightDeck id) NOT_LINKED],
     Returned ())
  ∧ (∃ l r, endSlideId = l ++ id ++ r
            ∧ all_white_space l = true ∧ all_white_space r = true)
  ∧ starts_with_white_space id = false
  ∧ ends_with_white_space id = false.
Proof.
  intros E deck insightDeckId insightDeck id. split; [|apply trim_spec].
  unfold applyCustomStyle.
  replace (getProperty (documentProperties h) "END_SLIDE_ID")
    with (Str endSlideId) by (unfold getProperty; by rewrite E).
  done.
Qed.

Lemma applyCustomStyle_on_sheet :
  applyCustomStyle sheet "generated-deck"
  = ([OpenDeck (Str "generated-deck");
      OpenDeck (Str "insights-deck");
      GetSlideById insightDeck "end-slide";
      AppendSlide deck (SlideById insightDeck "end-slide") NOT_LINKED],
     Returned ()).
Proof.
  apply (applyCustomStyle_appends_end_slide
           sheet "generated-deck" " end-slide ").
  vm_compute. reflexivity.
Defined.

Import Columns.

(** ** More on strings *)

Section Padding.

Lemma append_String c (l s : string) : String c l ++ s = String c (l ++ s).
Proof. done. Qed.

Lemma trimStart_app_white l s :
  all_white_space l = true → trimStart (l ++ s) = trimStart s.
Proof.
  induction l as [|c l IH]; [done|]. rewrite append_String. cbn.
  intros [Wc Wl]%andb_prop. rewrite Wc. auto.
Qed.

Lemma trimStart_white s : all_white_space s = true → trimStart s = "".
Proof.
  induction s as [|c s IH]; [done|]. cbn.
  intros [Wc Ws]%andb_prop. rewrite Wc. auto.
Qed.

Lemma all_white_space_app l r :
  all_white_space l = true → all_white_space r = true →
  all_white_space (l ++ r) = true.
Proof.
  induction l as [|c l IH]; [done|]. rewrite append_String. cbn.
  intros [Wc Wl]%andb_prop Wr. rewrite Wc. auto.
Qed.

Lemma trimEnd_white s : all_white_space s = true → trimEnd s = "".
Proof.
  induction s as [|c s IH]; [done|]. cbn.
  intros [Wc Ws]%andb_prop. by rewrite IH, Wc.
Qed.

Lemma trimEnd_app_white s r :
  all_white_space r = true → trimEnd (s ++ r) = trimEnd s.
Proof.
  intros Wr. induction s as [|c s IH].
  - by apply trimEnd_white.
  - rewrite append_String. cbn. by rewrite IH.
Qed.

(** [trimStart] leaves a suffix of its argument, so what is appended to the
    argument is appended to the result, unless the argument is all white. *)
Lemma trimStart_app s r :
  all_white_space s = false → trimStart (s ++ r) = trimStart s ++ r.
Proof.
  induction s as [|c s IH]; [done|]. rewrite append_String. cbn.
  destruct (is_white_space c); [exact IH|done].
Qed.

(** White space around a string does not change what [trim] gives. *)
Lemma trim_padding l s r :
  all_white_space l = true → all_white_space r = true →
  trim (l ++ s ++ r) = trim s.
Proof.
  intros Wl Wr. unfold trim. rewrite trimStart_app_white by done.
  destruct (all_white_space s) eqn:Ws.
  - rewrite (trimStart_white s), (trimStart_white (s ++ r));
      auto using all_white_space_app.
  - rewrite trimStart_app by done. by apply trimEnd_app_white.
Qed.

Lemma split_length sep s :
  List.length (split sep s) = S (count_sep sep s).
Proof.
  induction s as [|c s IH]; [done|]. cbn.
  destruct (Ascii.eqb c sep); cbn; [by rewrite IH|].
  destruct (split sep s); cbn in *; done.
Qed.

Lemma split_pieces sep s :
  Forall (λ piece, count_sep sep piece = 0%nat) (split sep s).
Proof.
  induction s as [|c s IH]; [by repeat constructor|]. cbn.
  destruct (Ascii.eqb c sep) eqn:E; [by constructor|].
  destruct (split sep s) as [|piece pieces].
  - repeat constructor. cbn. by rewrite E.
  - inversion_clear IH as [|?? Hp Hps]. constructor; [|done].
    cbn. by rewrite E.
Qed.

End Padding.

(** ** The deck finisher, further *)

(** X1. Without an END_SLIDE_ID property, [applyCustomStyle] has opened
    both decks when [trim] is called on [null]: it throws a TypeError, and
    no slide is looked up or appended. *)
Theorem applyCustomStyle_without_end_slide_throws
    (h : host) (newDeckId : string) :
  documentProperties h !! "END_SLIDE_ID" = None →
  applyCustomStyle h newDeckId
  = ([OpenDeck (Str newDeckId);
      OpenDeck (getProperty (documentProperties h) "INSIGHTS_DECK_ID")],
     Thrown TypeError)
  ∧ (∀ d s m, AppendSlide d s m ∉ trace (applyCustomStyle h newDeckId))
  ∧ (∀ d id, GetSlideById d id ∉ trace (applyCustomStyle h newDeckId)).
Proof.
  intros E.
  assert (applyCustomStyle h newDeckId
          = ([OpenDeck (Str newDeckId);
              OpenDeck (getProperty (documentProperties h) "INSIGHTS_DECK_ID")],
             Thrown TypeError)) as ->.
  { unfold applyCustomStyle.
    replace (getProperty (documentProperties h) "END_SLIDE_ID") with Null
      by (unfold getProperty; by rewrite E).
    done. }
  split; [done|]. cbn [trace fst].
  split; intros *; rewrite !elem_of_cons, elem_of_nil;
    intros [?|[?|[]]]; discriminate.
Qed.

Lemma applyCustomStyle_without_end_slide_on_sheet :
  applyCustomStyle sheet_without_end_slide "generated-deck"
  = ([OpenDeck (Str "generated-deck"); OpenDeck (Str "insights-deck")],
     Thrown TypeError).
Proof.
  apply (applyCustomStyle_without_end_slide_throws
           sheet_without_end_slide "generated-deck").
  vm_compute. reflexivity.
Defined.

(** X2. White space around the END_SLIDE_ID property does not matter: two
    sheets whose end slide ids differ only by white space before and after,
    and whose insights deck is the same, are finished alike. *)
Theorem applyCustomStyle_ignores_padding
    (h padded : host) (newDeckId before id after : string) :
  all_white_space before = true →
  all_white_space after = true →
  documentProperties h !! "END_SLIDE_ID" = Some id →
  documentProperties padded !! "END_SLIDE_ID" = Some (before ++ id ++ after) →
  documentProperties padded !! "INSIGHTS_DECK_ID"
  = documentProperties h !! "INSIGHTS_DECK_ID" →
  applyCustomStyle padded newDeckId = applyCustomStyle h newDeckId.
Proof.
  intros Wb Wa Eh Ep Ed. unfold applyCustomStyle, getProperty.
  rewrite Eh, Ep, Ed. cbn [trim_of]. by rewrite trim_padding.
Qed.

Lemma applyCustomStyle_ignores_padding_on_sheet :
  applyCustomStyle sheet "generated-deck"
  = applyCustomStyle sheet_end_slide_trimmed "generated-deck".
Proof.
  apply (applyCustomStyle_ignores_padding
           sheet_end_slide_trimmed sheet "generated-deck"
           " " "end-slide" " ");
    vm_compute; reflexivity.
Defined.

(** ** The image resolver, further *)

(** X3. The resolver never throws and its only effect is at most one
    toast.  What it returns is the first file the search enumerates, and
    the DEFAULT_IMAGE_MOCKUP property when the search enumerates none; a
    file it returns is always one the search enumerated. *)
Theorem retrieveClientImage_first_match_or_default
    (h : host) (folder : Folder) (criteriaId : prim) :
  let files := searchFiles folder (searchQuery criteriaId) in
  let r := retrieveClientImage h folder criteriaId in
  result r
  = Returned
      match head files with
      | Some first => ImageFile first
      | None => ImageSrc (getProperty (documentProperties h)
                                      "DEFAULT_IMAGE_MOCKUP")
      end
  ∧ (List.length (trace r) ≤ 1)%nat
  ∧ forallb is_toast (trace r) = true
  ∧ (∀ f, result r = Returned (ImageFile f) → f ∈ files).
Proof.
  intros files r. subst r. rewrite retrieveClientImage_cases. fold files.
  destruct files as [|first [|second rest]]; cbn;
    (split; [done|]); (split; [lia|]); (split; [done|]);
    intros f [=]; subst; apply list_elem_of_here.
Qed.

Lemma retrieveClientImage_one_toast h folder criteriaId :
  (List.length (trace (retrieveClientImage h folder criteriaId)) ≤ 1)%nat.
Proof.
  rewrite retrieveClientImage_cases.
  destruct (searchFiles folder (searchQuery criteriaId)) as [|? [|? ?]];
    cbn; lia.
Qed.

Lemma deck_calls_after_toasts (toasts calls : list event) :
  forallb is_toast toasts = true →
  forallb (λ e, negb (is_toast e)) calls = true →
  deck_calls (toasts ++ calls) = calls.
Proof.
  intros Ht Hc. unfold deck_calls. rewrite List.filter_app.
  replace (List.filter _ toasts) with (@nil event).
  - cbn. induction calls as [|e calls IH]; [done|].
    cbn in *. apply andb_prop in Hc as [-> Hc]. by rewrite IH.
  - induction toasts as [|e toasts IH]; [done|].
    cbn in *. apply andb_prop in Ht as [-> Ht]. by apply IH.
Qed.

Lemma cellAt_unset h row key :
  documentProperties h !! key = None → cellAt h row key = Undefined.
Proof.
  intros E. unfold cellAt, offset, getProperty. by rewrite E.
Qed.

(** ** The row-to-slide mapper, further *)

(** X4. A row is mapped all or nothing.  Either the mapper throws before
    any call to the host, or it returns after exactly seven calls on the
    decks, in this order and all on the one slide it appended: the slide,
    its title, subtitle and body, the mockup image, the client image, and
    the insight appender.  At most one toast is shown, and before them. *)
Theorem parseFieldsAndCreateSlide_all_or_nothing
    (h : host) (deck insightDeck : Presentation) (layout : Layout)
    (row : list string) (r : run unit) :
  parseFieldsAndCreateSlide h deck insightDeck layout row = Some r →
  let slide := AppendedFromLayout deck layout in
  r = ([], Thrown TypeError)
  ∨ (result r = Returned ()
     ∧ (∃ title subtitle body mockup clientImage insights,
          deck_calls (trace r)
          = [AppendLayoutSlide deck layout;
             SetText slide TITLE title;
             SetText slide SUBTITLE (Str subtitle);
             SetText slide BODY (Str body);
             InsertImage slide (ImageSrc mockup)
               (RetrieveShape slide "best-practice");
             InsertImage slide clientImage
               (RetrieveShape slide "client-mockup");
             AppendInsightSlides deck insightDeck insights])
     ∧ ∃ toasts, trace r = (toasts ++ deck_calls (trace r))%list
                 ∧ forallb is_toast toasts = true
                 ∧ (List.length toasts ≤ 1)%nat).
Proof.
  intros H slide.
  destruct (cellAt_cases h row "RECOMMENDATIONS_APPLIES_ROW") as [Ea|[a Ea]];
    [left; apply (parseFieldsAndCreateSlide_throws _ _ _ _ _ _ H); auto|].
  destruct (cellAt_cases h row "RECOMMENDATIONS_INSIGHTS_ROW") as [Ei|[i Ei]];
    [left; apply (parseFieldsAndCreateSlide_throws _ _ _ _ _ _ H); auto|].
  right.
  destruct (parseFieldsAndCreateSlide_returns _ _ _ _ _ _ _ _ H Ea Ei)
    as (toasts & clientImage & Er & Ht & ->).
  cbn [trace result fst snd]. rewrite deck_calls_after_toasts by done.
  split; [done|]. split; [by repeat eexists|].
  exists toasts. split; [done|]. split; [done|].
  pose proof (retrieveClientImage_one_toast h (folder h)
                (cellAt h row "RECOMMENDATIONS_CRITERIA_ID_ROW")) as Hl.
  by rewrite Er in Hl.
Qed.

Lemma parseFieldsAndCreateSlide_all_or_nothing_on_sheet :
  ∃ r, parseFieldsAndCreateSlide
         sheet deck insightDeck layout row_with_insights = Some r
       ∧ (r = ([], Thrown TypeError)
          ∨ result r = Returned ()
            ∧ List.length (deck_calls (trace r)) = 7%nat).
Proof.
  eexists. split; [vm_compute; reflexivity|].
  edestruct (parseFieldsAndCreateSlide_all_or_nothing
               sheet deck insightDeck layout row_with_insights)
    as [E|(Hr & (? & ? & ? & ? & ? & ? & Hc) & _)];
    [vm_compute; reflexivity|by left|].
  right. split; [exact Hr|]. by rewrite Hc.
Defined.

(** X5. Whenever the mapper returns, the insight appender was called
    exactly once, on the two decks it was given, with the pieces of the
    insights cell between its commas, in order: one piece more than the
    cell has commas, none of them holding a comma, and joined by commas
    they give the cell back. *)
Theorem insights_cell_is_split_on_commas
    (h : host) (deck insightDeck : Presentation) (layout : Layout)
    (row : list string) (r : run unit) (insightsCell : string) :
  parseFieldsAndCreateSlide h deck insightDeck layout row = Some r →
  cellAt h row "RECOMMENDATIONS_INSIGHTS_ROW" = Str insightsCell →
  result r = Returned () →
  ∃ insights,
    List.filter (λ e, match e with AppendInsightSlides _ _ _ => true
                              | _ => false end) (trace r)
    = [AppendInsightSlides deck insightDeck insights]
    ∧ join "," insights = insightsCell
    ∧ List.length insights = S (count_sep "," insightsCell)
    ∧ Forall (λ id, count_sep "," id = 0%nat) insights.
Proof.
  intros H Ei Hr.
  destruct (parseFieldsAndCreateSlide_trace _ _ _ _ _ _ H)
    as [->|(a & i & toasts & clientImage & _ & Ei' & Ht & ->)]; [done|].
  rewrite Ei in Ei'. injection Ei' as <-.
  exists (split "," insightsCell).
  split; [|split; [apply join_split|split;
                   [apply split_length|apply split_pieces]]].
  cbn [trace fst]. rewrite List.filter_app. cbn.
  replace (List.filter _ toasts) with (@nil event); [done|].
  clear -Ht. induction toasts as [|[] toasts IH]; cbn in *; auto; done.
Qed.

Lemma insights_cell_is_split_on_sheet :
  ∃ r, parseFieldsAndCreateSlide
         sheet deck insightDeck layout row_with_insights = Some r
       ∧ ∃ insights,
           List.filter (λ e, match e with AppendInsightSlides _ _ _ => true
                                     | _ => false end) (trace r)
           = [AppendInsightSlides deck insightDeck insights]
           ∧ join "," insights = "S1,S2"
           ∧ List.length insights = 2%nat.
Proof.
  eexists. split; [vm_compute; reflexivity|].
  edestruct (insights_cell_is_split_on_commas
               sheet deck insightDeck layout row_with_insights)
    as (insights & Hf & Hj & Hl & _);
    [vm_compute; reflexivity|vm_compute; reflexivity|reflexivity|].
  exists insights. split; [exact Hf|]. split; [exact Hj|exact Hl].
Defined.

(** X6. Whenever the mapper returns, what it inserts over the
    "client-mockup" shape is what the resolver returned for the row's
    criteria id, and nothing else is inserted there.  So a row with an empty
    mockup cell and no screenshot carries the default image twice. *)
Theorem client_image_is_the_resolved_one
    (h : host) (deck insightDeck : Presentation) (layout : Layout)
    (row : list string) (r : run unit) :
  parseFieldsAndCreateSlide h deck insightDeck layout row = Some r →
  result r = Returned () →
  let slide := AppendedFromLayout deck layout in
  let criteriaId := cellAt h row "RECOMMENDATIONS_CRITERIA_ID_ROW" in
  let default := getProperty (documentProperties h) "DEFAULT_IMAGE_MOCKUP" in
  (∀ s src,
     InsertImage s src (RetrieveShape s "client-mockup") ∈ trace r
     ↔ s = slide
       ∧ result (retrieveClientImage h (folder h) criteriaId) = Returned src)
  ∧ (searchFiles (folder h) (searchQuery criteriaId) = [] →
     cellAt h row "RECOMMENDATIONS_IMAGE_MOCKUP_ROW" = Str "" →
     InsertImage slide (ImageSrc default) (RetrieveShape slide "best-practice")
     ∈ trace r
     ∧ InsertImage slide (ImageSrc default)
         (RetrieveShape slide "client-mockup") ∈ trace r).
Proof.
  intros H Hr slide criteriaId default.
  destruct (cellAt_cases h row "RECOMMENDATIONS_APPLIES_ROW") as [Ea|[a Ea]];
    [by rewrite (parseFieldsAndCreateSlide_throws _ _ _ _ _ _ H) in Hr; auto|].
  destruct (cellAt_cases h row "RECOMMENDATIONS_INSIGHTS_ROW") as [Ei|[i Ei]];
    [by rewrite (parseFieldsAndCreateSlide_throws _ _ _ _ _ _ H) in Hr; auto|].
  destruct (parseFieldsAndCreateSlide_returns _ _ _ _ _ _ _ _ H Ea Ei)
    as (toasts & clientImage & Er & Ht & ->).
  clear H Hr. fold criteriaId in Er. rewrite Er.
  cbn [trace result fst snd] in *. fold slide. split.
  - intros s src. rewrite elem_of_app, !elem_of_cons, elem_of_nil. split.
    + intros [Hin|Hin]; [by apply (not_among_toasts _ _ Ht) in Hin|].
      destruct Hin as [?|[?|[?|[?|[?|[?|[?|[]]]]]]]]; try discriminate.
      split; congruence.
    + intros [-> [= ->]]. auto 10.
  - intros Ef Em. rewrite Em. cbn [is_empty_string].
    rewrite retrieveClientImage_cases, Ef in Er. injection Er as _ <-.
    split; rewrite elem_of_app, !elem_of_cons; auto 10.
Qed.

Lemma client_image_on_sheet :
  ∃ r, parseFieldsAndCreateSlide sheet deck insightDeck layout row_plain
       = Some r
       ∧ InsertImage slide (ImageFile (DriveFile "nav-2.png"))
           (RetrieveShape slide "client-mockup") ∈ trace r.
Proof.
  eexists. split; [vm_compute; reflexivity|].
  edestruct (client_image_is_the_resolved_one
               sheet deck insightDeck layout row_plain)
    as (Hiff & _); [vm_compute; reflexivity|reflexivity|].
  apply Hiff. split; [reflexivity|]. vm_compute. reflexivity.
Defined.

(** X7. A sheet on which the "applies to" column or the insights column is
    not configured maps no row at all: whatever the row holds, the mapper
    throws a TypeError before any call to the host. *)
Theorem unconfigured_split_column_throws
    (h : host) (deck insightDeck : Presentation) (layout : Layout)
    (row : list string) (r : run unit) :
  parseFieldsAndCreateSlide h deck insightDeck layout row = Some r →
  documentProperties h !! "RECOMMENDATIONS_APPLIES_ROW" = None
  ∨ documentProperties h !! "RECOMMENDATIONS_INSIGHTS_ROW" = None →
  r = ([], Thrown TypeError).
Proof.
  intros H [E|E]; apply (parseFieldsAndCreateSlide_throws _ _ _ _ _ _ H);
    [left|right]; by apply cellAt_unset.
Qed.

Lemma unconfigured_insights_column_on_sheet :
  ∃ r, parseFieldsAndCreateSlide
         sheet_without_insights_column deck insightDeck layout
         row_with_insights = Some r
       ∧ r = ([], Thrown TypeError).
Proof.
  eexists. split; [vm_compute; reflexivity|].
  apply (unconfigured_split_column_throws
           sheet_without_insights_column deck insightDeck layout
           row_with_insights).
  - vm_compute. reflexivity.
  - right. vm_compute. reflexivity.
Defined.

(** *** What the mapper depends on *)

Ltac in_keys :=
  repeat first [apply list_elem_of_here | apply list_elem_of_further].

Lemma index_app row extra i :
  index row i ≠ Undefined → index (row ++ extra)%list i = index row i.
Proof.
  unfold index. destruct (i <? 0); [done|].
  destruct (row !! Z.to_nat i) as [c|] eqn:E; [|done].
  intros _. by rewrite (lookup_app_l_Some _ _ _ _ E).
Qed.

Lemma cellAt_app h row extra key :
  cellAt h row key ≠ Undefined →
  cellAt h (row ++ extra)%list key = cellAt h row key.
Proof.
  unfold cellAt. destruct (offset _ key); [apply index_app|done].
Qed.

(** Two rows that hold the same cells in the seven columns are mapped
    alike. *)
Lemma parseFieldsAndCreateSlide_same_cells h deck insightDeck layout row other :
  (∀ key, key ∈ column_keys → cellAt h other key = cellAt h row key) →
  parseFieldsAndCreateSlide h deck insightDeck layout other
  = parseFieldsAndCreateSlide h deck insightDeck layout row.
Proof.
  intros H. unfold parseFieldsAndCreateSlide.
  repeat match goal with
  | |- context [offset ?p ?k] =>
      let E := fresh "E" in
      let i := fresh "i" in
      let Hk := fresh "Hk" in
      destruct (offset p k) as [i|] eqn:E; [|done];
      cbn [mbind option_bind];
      assert (index other i = index row i) as Hk
        by (specialize (H k); unfold cellAt in H; rewrite E in H;
            apply H; in_keys)
  end.
  repeat match goal with
  | Hk : index other _ = _ |- _ => rewrite Hk; clear Hk
  end.
  done.
Qed.

Lemma retrieveClientImage_same_default h other folder criteriaId :
  documentProperties other !! "DEFAULT_IMAGE_MOCKUP"
  = documentProperties h !! "DEFAULT_IMAGE_MOCKUP" →
  retrieveClientImage other folder criteriaId
  = retrieveClientImage h folder criteriaId.
Proof.
  intros E. rewrite !retrieveClientImage_cases. unfold getProperty.
  by rewrite E.
Qed.

(** X8. Cells beyond the configured columns are not looked at: when the
    seven columns all lie within the row, cells added at the end of the row
    change nothing in what the mapper does. *)
Theorem cells_beyond_the_columns_are_ignored
    (h : host) (deck insightDeck : Presentation) (layout : Layout)
    (row extra : list string) :
  (∀ key, key ∈ column_keys → cellAt h row key ≠ Undefined) →
  parseFieldsAndCreateSlide h deck insightDeck layout (row ++ extra)%list
  = parseFieldsAndCreateSlide h deck insightDeck layout row.
Proof.
  intros H. apply parseFieldsAndCreateSlide_same_cells.
  intros key Hin. by apply cellAt_app, H.
Qed.

Lemma cells_beyond_the_columns_on_sheet :
  parseFieldsAndCreateSlide sheet deck insightDeck layout
    (row_with_insights ++ ["reviewed"; "2024"])%list
  = parseFieldsAndCreateSlide sheet deck insightDeck layout row_with_insights.
Proof.
  apply (cells_beyond_the_columns_are_ignored
           sheet deck insightDeck layout row_with_insights
           ["reviewed"; "2024"]).
  intros key Hin. unfold column_keys in Hin.
  repeat (apply elem_of_cons in Hin as [->|Hin]; [by vm_compute|]).
  by apply elem_of_nil in Hin.
Defined.

(** X9. The mapper reads eight properties and no other: two sheets with
    the same folder that agree on the seven columns and on the default
    mockup map every row alike, whatever else their properties hold. *)
Theorem mapper_reads_eight_properties
    (h other : host) (deck insightDeck : Presentation) (layout : Layout)
    (row : list string) :
  folder other = folder h →
  (∀ key, key ∈ mapper_keys →
          documentProperties other !! key = documentProperties h !! key) →
  parseFieldsAndCreateSlide other deck insightDeck layout row
  = parseFieldsAndCreateSlide h deck insightDeck layout row.
Proof.
  intros Ef H. unfold parseFieldsAndCreateSlide.
  assert (getProperty (documentProperties other) "DEFAULT_IMAGE_MOCKUP"
          = getProperty (documentProperties h) "DEFAULT_IMAGE_MOCKUP") as ->
    by (unfold getProperty; rewrite H by in_keys; done).
  rewrite Ef.
  repeat match goal with
  | |- context [offset (documentProperties other) ?k] =>
      replace (offset (documentProperties other) k)
        with (offset (documentProperties h) k)
        by (unfold offset, getProperty; rewrite (H k) by in_keys; done);
      destruct (offset (documentProperties h) k); [|done];
      cbn [mbind option_bind]
  end.
  by rewrite (retrieveClientImage_same_default h other) by (apply H; in_keys).
Qed.

Lemma mapper_ignores_end_slide_on_sheet :
  parseFieldsAndCreateSlide
    sheet_end_slide_trimmed deck insightDeck layout row_plain
  = parseFieldsAndCreateSlide sheet deck insightDeck layout row_plain.
Proof.
  apply (mapper_reads_eight_properties
           sheet sheet_end_slide_trimmed deck insightDeck layout row_plain).
  - reflexivity.
  - intros key Hin. unfold mapper_keys, column_keys in Hin.
    repeat (apply elem_of_cons in Hin as [->|Hin]; [by vm_compute|]).
    by apply elem_of_nil in Hin.
Defined.

(** X10. A row without a criteria-id cell is resolved as if its id were
    the text "undefined": the toasts shown and the client image inserted
    are those of the resolver for that id, so with no file of that title
    the user reads "No image found for criteria id undefined". *)
Theorem absent_criteria_id_is_resolved_as_undefined
    (h : host) (deck insightDeck : Presentation) (layout : Layout)
    (row : list string) (r : run unit) :
  parseFieldsAndCreateSlide h deck insightDeck layout row = Some r →
  cellAt h row "RECOMMENDATIONS_CRITERIA_ID_ROW" = Undefined →
  result r = Returned () →
  let slide := AppendedFromLayout deck layout in
  let resolved := retrieveClientImage h (folder h) (Str "undefined") in
  trace r = (trace resolved ++ deck_calls (trace r))%list
  ∧ (∀ src, result resolved = Returned src →
            InsertImage slide src (RetrieveShape slide "client-mockup")
            ∈ trace r)
  ∧ (searchFiles (folder h) (searchQuery (Str "undefined")) = [] →
     Toast "No image found for criteria id undefined" ∈ trace r).
Proof.
  intros H Eid Hr slide resolved.
  destruct (cellAt_cases h row "RECOMMENDATIONS_APPLIES_ROW") as [Ea|[a Ea]];
    [by rewrite (parseFieldsAndCreateSlide_throws _ _ _ _ _ _ H) in Hr; auto|].
  destruct (cellAt_cases h row "RECOMMENDATIONS_INSIGHTS_ROW") as [Ei|[i Ei]];
    [by rewrite (parseFieldsAndCreateSlide_throws _ _ _ _ _ _ H) in Hr; auto|].
  destruct (parseFieldsAndCreateSlide_returns _ _ _ _ _ _ _ _ H Ea Ei)
    as (toasts & clientImage & Er & Ht & ->).
  rewrite Eid in Er.
  change (resolved = (toasts, Returned clientImage)) in Er.
  clear H Hr. cbn [trace result fst snd]. rewrite Er.
  rewrite deck_calls_after_toasts by done. cbn [trace result fst snd].
  split; [done|]. split.
  - intros src [= <-]. rewrite elem_of_app, !elem_of_cons. auto 10.
  - intros Ef. subst resolved.
    rewrite retrieveClientImage_cases, Ef in Er. injection Er as <- _.
    apply list_elem_of_here.
Qed.

Lemma absent_criteria_id_on_sheet :
  ∃ r, parseFieldsAndCreateSlide
         sheet_id_off deck insightDeck layout row_with_insights = Some r
       ∧ Toast "No image found for criteria id undefined" ∈ trace r.
Proof.
  eexists. split; [vm_compute; reflexivity|].
  edestruct (absent_criteria_id_is_resolved_as_undefined
               sheet_id_off deck insightDeck layout row_with_insights)
    as (_ & _ & Ht);
    [vm_compute; reflexivity|vm_compute; reflexivity|reflexivity|].
  apply Ht. reflexivity.
Defined.
